(** * Azure Blob storage glue and the model persistence adapter

    A shallow embedding of
      - [src/cloud_storage/azure_storage.py]   ([AzureBlobStorageService]),
      - [src/entity/s3_estimator.py]           ([Proj1EstimatorAzure]),
      - [src/configuration/azure_connection.py] ([AzureBlobClient]).

    Python code that raises and mutates is written in a state-and-exception
    monad: a computation takes the process state and gives back an outcome
    (a value or a raised exception) together with the state it left behind.
    State changes made before an exception is raised persist, as in Python. *)

From Stdlib Require Import Strings.Byte.
From stdpp Require Import base option list strings gmap.

(** ** Python values, exceptions, outcomes *)

Definition bytes := list byte.

(** A [bytes] literal written as a string. *)
Definition b (s : string) : bytes := String.list_byte_of_string s.

(** The exception classes the three modules raise or let through.  Every
    one of them derives from Python's [Exception].  [MyException] is the
    domain error of [src.exception]; it is built as [MyException(e, sys)]
    and carries the exception it wraps. *)
Inductive pyexc : Type :=
| ValueError (msg : string)
| NameError (name : string)
| FileNotFoundError (path : string)
| UnicodeDecodeError
| ResourceNotFoundError (code : string)
| ResourceExistsError (code : string)
| HttpResponseError (status : nat)
| ServiceRequestError (msg : string)
| PlainException (msg : string)
| LibraryError (origin msg : string)
| MyException (cause : pyexc).

(** [except Exception] matches every class above. *)
Definition Exception (e : pyexc) : bool := true.

(** [except MyException] matches the domain error only. *)
Definition is_MyException (e : pyexc) : bool :=
  match e with MyException _ => true | _ => false end.

Inductive outcome (A : Type) : Type :=
| Ret (a : A)
| Raise (e : pyexc).
Arguments Ret {A} a.
Arguments Raise {A} e.

Definition raised {A} (o : outcome A) : bool :=
  match o with Raise _ => true | Ret _ => false end.

(** ** The monad *)

Definition M (S A : Type) : Type := S -> outcome A * S.

Definition ret {S A} (a : A) : M S A := fun s => (Ret a, s).
Definition raise {S A} (e : pyexc) : M S A := fun s => (Raise e, s).
Definition bind {S A B} (m : M S A) (k : A -> M S B) : M S B :=
  fun s => match m s with
           | (Ret a, s') => k a s'
           | (Raise e, s') => (Raise e, s')
           end.
Definition get {S} : M S S := fun s => (Ret s, s).
Definition modify {S} (f : S -> S) : M S unit := fun s => (Ret tt, f s).
Definition of_outcome {S A} (o : outcome A) : M S A := fun s => (o, s).

(** [try: body / except cls as e: handler e].  An exception of another
    class passes through the statement unchanged. *)
Definition try_except {S A} (cls : pyexc -> bool) (body : M S A)
    (handler : pyexc -> M S A) : M S A :=
  fun s => match body s with
           | (Raise e, s') => if cls e then handler e s' else (Raise e, s')
           | (Ret a, s') => (Ret a, s')
           end.

Declare Scope py_scope.
Delimit Scope py_scope with py.
Notation "x <- c1 ;; c2" := (bind c1 (fun x => c2))
  (at level 100, c1 at next level, right associativity) : py_scope.
Notation "c1 ;; c2" := (bind c1 (fun _ => c2))
  (at level 100, right associativity) : py_scope.
Open Scope py_scope.

(** ** The world outside the code

    The remote account (containers of blobs), the local file system, the
    transport between the two, and a log of every request the code makes
    to them, oldest first.  [faults] is the schedule of the transport: each
    request that goes over the network takes the head of the list, and fails
    with the exception found there; an exhausted schedule means a healthy
    transport.  [loaded_models] holds, per adapter instance, the attribute
    [self.loaded_model]; no entry stands for Python's [None]. *)

Inductive event : Type :=
| EContainerExists (container : string)
| ECreateContainer (container : string)
| EBlobExists (container blob : string)
| EUploadBlob (container blob : string)
| EDownloadBlob (container blob : string)
| EDeleteBlob (container blob : string)
| EOpenWrite (path : string)
| EOpenRead (path : string)
| EWrite (path : string)
| ERemove (path : string)
| EPickleLoad.

Definition is_download (ev : event) : bool :=
  match ev with EDownloadBlob _ _ => true | _ => false end.

Fixpoint count (p : event -> bool) (t : list event) : nat :=
  match t with
  | [] => 0
  | ev :: t' => (if p ev then 1 else 0) + count p t'
  end.

Record world (Model : Type) : Type := World {
  remote : gmap string (gmap string bytes);
  fs : gmap string bytes;
  faults : list (option pyexc);
  trace : list event;
  loaded_models : gmap nat Model
}.
Arguments World {Model}.
Arguments remote {Model}.
Arguments fs {Model}.
Arguments faults {Model}.
Arguments trace {Model}.
Arguments loaded_models {Model}.

Section World.
Context {Model : Type}.
Abbreviation world := (world Model).
Abbreviation M := (M world).

Definition set_remote (r : gmap string (gmap string bytes)) (w : world) : world :=
  World r (fs w) (faults w) (trace w) (loaded_models w).
Definition set_fs (f : gmap string bytes) (w : world) : world :=
  World (remote w) f (faults w) (trace w) (loaded_models w).
Definition set_faults (fl : list (option pyexc)) (w : world) : world :=
  World (remote w) (fs w) fl (trace w) (loaded_models w).
Definition set_trace (t : list event) (w : world) : world :=
  World (remote w) (fs w) (faults w) t (loaded_models w).
Definition set_loaded_models (l : gmap nat Model) (w : world) : world :=
  World (remote w) (fs w) (faults w) (trace w) l.

Definition log (ev : event) : M unit :=
  modify (fun w => set_trace (trace w ++ [ev]) w).

(** The fault the next network request will meet, if any. *)
Definition next_fault (w : world) : option pyexc :=
  match faults w with
  | Some e :: _ => Some e
  | _ => None
  end.

(** One network request: consume the head of the schedule. *)
Definition transport : M unit := fun w =>
  match faults w with
  | Some e :: rest => (Raise e, set_faults rest w)
  | None :: rest => (Ret tt, set_faults rest w)
  | [] => (Ret tt, w)
  end.

(** *** The vendor SDK, as the code uses it

    [get_container_client] and [get_blob_client] only build a local
    client object and send nothing.  [exists()] answers [False] for a
    missing resource and raises for every other failure; the other
    requests raise [ResourceNotFoundError] / [ResourceExistsError]. *)

Definition sdk_container_exists (c : string) : M bool :=
  log (EContainerExists c) ;;
  transport ;;
  w <- get ;;
  ret (match remote w !! c with Some _ => true | None => false end).

Definition sdk_create_container (c : string) : M unit :=
  log (ECreateContainer c) ;;
  transport ;;
  w <- get ;;
  match remote w !! c with
  | Some _ => raise (ResourceExistsError "ContainerAlreadyExists")
  | None => modify (fun w => set_remote (<[c := ∅]> (remote w)) w)
  end.

Definition sdk_blob_exists (c bl : string) : M bool :=
  log (EBlobExists c bl) ;;
  transport ;;
  w <- get ;;
  ret (match remote w !! c with
       | Some blobs => match blobs !! bl with Some _ => true | None => false end
       | None => false
       end).

(** [upload_blob(data, overwrite=True)] *)
Definition sdk_upload_blob (c bl : string) (data : bytes) : M unit :=
  log (EUploadBlob c bl) ;;
  transport ;;
  w <- get ;;
  match remote w !! c with
  | Some blobs =>
      modify (fun w => set_remote (<[c := <[bl := data]> blobs]> (remote w)) w)
  | None => raise (ResourceNotFoundError "ContainerNotFound")
  end.

(** [download_blob().readall()] *)
Definition sdk_download_blob (c bl : string) : M bytes :=
  log (EDownloadBlob c bl) ;;
  transport ;;
  w <- get ;;
  match remote w !! c with
  | Some blobs =>
      match blobs !! bl with
      | Some data => ret data
      | None => raise (ResourceNotFoundError "BlobNotFound")
      end
  | None => raise (ResourceNotFoundError "ContainerNotFound")
  end.

Definition sdk_delete_blob (c bl : string) : M unit :=
  log (EDeleteBlob c bl) ;;
  transport ;;
  w <- get ;;
  match remote w !! c with
  | Some blobs =>
      match blobs !! bl with
      | Some _ => modify (fun w => set_remote (<[c := delete bl blobs]> (remote w)) w)
      | None => raise (ResourceNotFoundError "BlobNotFound")
      end
  | None => raise (ResourceNotFoundError "ContainerNotFound")
  end.

(** *** The local file system *)

(** [open(path, "wb")]: the file is created, or emptied if it exists. *)
Definition open_wb (path : string) : M unit :=
  log (EOpenWrite path) ;;
  modify (fun w => set_fs (<[path := []]> (fs w)) w).

(** [file.write(data)] on a file opened by [open_wb]. *)
Definition file_write (path : string) (data : bytes) : M unit :=
  log (EWrite path) ;;
  modify (fun w => set_fs (<[path := default [] (fs w !! path) ++ data]> (fs w)) w).

(** [open(path, "rb")] and the reading of the whole file. *)
Definition open_rb (path : string) : M bytes :=
  log (EOpenRead path) ;;
  w <- get ;;
  match fs w !! path with
  | Some data => ret data
  | None => raise (FileNotFoundError path)
  end.

(** [os.remove(path)] *)
Definition os_remove (path : string) : M unit :=
  log (ERemove path) ;;
  w <- get ;;
  match fs w !! path with
  | Some _ => modify (fun w => set_fs (delete path (fs w)) w)
  | None => raise (FileNotFoundError path)
  end.

End World.

(** ** [AzureBlobStorageService] (src/cloud_storage/azure_storage.py)

    Every method has the shape
    [try: ... except Exception as e: logging.error(...); raise].
    Logging leaves no mark on the state and is left out. *)

Section StorageService.
Context {Model DataFrame : Type}.
Abbreviation world := (world Model).
Abbreviation M := (M world).

(** pandas and the codec, which the module calls and does not define:
    [df.to_csv(buf, index=False)], [pd.read_csv], and UTF-8. *)
Variable to_csv : DataFrame -> string.
Variable read_csv : string -> outcome DataFrame.
Variable utf8_encode : string -> bytes.
Variable utf8_decode : bytes -> outcome string.


Definition blob_exists (container_name blob_name : string) : M bool :=
  try_except Exception
    (sdk_blob_exists container_name blob_name)
    (fun e => raise e).

Definition upload_file (file_path container_name blob_name : string) : M unit :=
  try_except Exception
    (file <- open_rb file_path ;;
     sdk_upload_blob container_name blob_name file)
    (fun e => raise e).

Definition download_blob (container_name blob_name file_path : string) : M unit :=
  try_except Exception
    (open_wb file_path ;;
     download_stream <- sdk_download_blob container_name blob_name ;;
     file_write file_path download_stream)
    (fun e => raise e).

Definition upload_dataframe_as_csv (df : DataFrame)
    (container_name blob_name : string) : M unit :=
  try_except Exception
    (let csv_buffer := to_csv df in
     sdk_upload_blob container_name blob_name (utf8_encode csv_buffer))
    (fun e => raise e).

Definition read_blob_as_dataframe (container_name blob_name : string) : M DataFrame :=
  try_except Exception
    (download_stream <- sdk_download_blob container_name blob_name ;;
     csv_content <- of_outcome (utf8_decode download_stream) ;;
     of_outcome (read_csv csv_content))
    (fun e => raise e).


Definition delete_blob (container_name blob_name : string) : M unit :=
  try_except Exception
    (sdk_delete_blob container_name blob_name)
    (fun e => raise e).

End StorageService.

(** ** [Proj1EstimatorAzure] (src/entity/s3_estimator.py)

    An instance is the record of the attributes [__init__] sets from its
    arguments, with a number that tells it from the other instances; its
    mutable attribute [loaded_model], [None] after [__init__], lives in the
    world under that number.  The storage service of every instance talks
    to the one account of the world. *)

Record Proj1EstimatorAzure : Type := Estimator {
  instance_id : nat;
  connection_string : string;
  container_name : string;
  model_path : string
}.

Definition temp_file_path : string := "temp_model.pkl".

Section Estimator.
Context {Model DataFrame Prediction : Type}.
Abbreviation world := (world Model).
Abbreviation M := (M world).

(** [MyModel.predict(dataframe=...)], defined in [src.entity.estimator]. *)
Variable model_predict : Model -> DataFrame -> outcome Prediction.

(** What the global name [pickle] is bound to in the module where
    [load_model] runs: [None] when the module binds no such name (looking
    it up then raises [NameError]), [Some loads] when it is bound to a
    deserialiser. *)
Variable pickle : option (bytes -> outcome Model).

Definition pickle_load (model_file : bytes) : M Model :=
  match pickle with
  | None => raise (NameError "pickle")
  | Some loads => log EPickleLoad ;; of_outcome (loads model_file)
  end.

(** [self.loaded_model] *)
Definition loaded_model (self : Proj1EstimatorAzure) (w : world) : option Model :=
  loaded_models w !! instance_id self.

Definition set_loaded_model (self : Proj1EstimatorAzure) (m : Model) : M unit :=
  modify (fun w => set_loaded_models (<[instance_id self := m]> (loaded_models w)) w).

Definition is_model_present (self : Proj1EstimatorAzure) : M bool :=
  try_except is_MyException
    (blob_exists (container_name self) (model_path self))
    (fun e => ret false).

Definition load_model (self : Proj1EstimatorAzure) : M Model :=
  try_except Exception
    (download_blob (container_name self) (model_path self) temp_file_path ;;
     model_file <- open_rb temp_file_path ;;
     model <- pickle_load model_file ;;
     os_remove temp_file_path ;;
     ret model)
    (fun e => raise (MyException e)).

Definition save_model (self : Proj1EstimatorAzure) (from_file : string)
    (remove : bool) : M unit :=
  try_except Exception
    (upload_file from_file (container_name self) (model_path self) ;;
     if remove then os_remove from_file else ret tt)
    (fun e => raise (MyException e)).

Definition predict (self : Proj1EstimatorAzure) (dataframe : DataFrame) : M Prediction :=
  try_except Exception
    (w <- get ;;
     model <- match loaded_model self w with
              | None => model <- load_model self ;;
                        set_loaded_model self model ;;
                        ret model
              | Some model => ret model
              end ;;
     of_outcome (model_predict model dataframe))
    (fun e => raise (MyException e)).

End Estimator.

(** The imports of src/entity/s3_estimator.py are [AzureBlobStorageService],
    [MyException], [MyModel], [sys], [DataFrame] and [os]: the module binds
    no name [pickle]. *)
Definition s3_estimator_pickle {Model : Type} : option (bytes -> outcome Model) := None.

(** What a caller of [load_model] or [predict] sees of an outcome:
    [except Exception as e: raise MyException(e, sys)]. *)
Definition wrapped {A} (o : outcome A) : outcome A :=
  match o with Ret a => Ret a | Raise e => Raise (MyException e) end.

(** The world in which a [load_model] that returned leaves its caller. *)
Definition after_load {Model} (self : Proj1EstimatorAzure) (w : world Model)
    : world Model :=
  World (remote w) (delete temp_file_path (fs w)) (tail (faults w))
    (trace w ++ [EOpenWrite temp_file_path;
                 EDownloadBlob (container_name self) (model_path self);
                 EWrite temp_file_path; EOpenRead temp_file_path;
                 EPickleLoad; ERemove temp_file_path])
    (loaded_models w).

(** ** [AzureBlobStorageService.__init__] (src/cloud_storage/azure_storage.py)

    [os.getenv] reads the process environment, a map from names to values.
    [not connection_string] holds of [None] and of the empty string. *)

Definition AZURE_STORAGE_CONNECTION_STRING : string := "AZURE_STORAGE_CONNECTION_STRING".

Definition os_getenv (environ : gmap string string) (key : string) : option string :=
  environ !! key.

Definition truthy (s : option string) : bool :=
  match s with
  | None => false
  | Some EmptyString => false
  | Some _ => true
  end.

Record AzureBlobStorageService (Client : Type) : Type := Service {
  blob_service_client : Client
}.
Arguments Service {Client}.
Arguments blob_service_client {Client}.

Section ServiceInit.
Context {Client : Type}.

(** [BlobServiceClient.from_connection_string], the factory of the vendor SDK. *)
Variable from_connection_string : string -> outcome Client.

(** The value of [connection_string] after the first [if]. *)
Definition resolved_connection_string (connection_string : option string)
    (environ : gmap string string) : option string :=
  if negb (truthy connection_string)
  then os_getenv environ AZURE_STORAGE_CONNECTION_STRING
  else connection_string.

Definition required_message : string := "Azure Storage connection string is required.".

Definition AzureBlobStorageService_init (connection_string : option string)
    (environ : gmap string string) : outcome (AzureBlobStorageService Client) :=
  let connection_string := resolved_connection_string connection_string environ in
  match connection_string with
  | None | Some EmptyString => Raise (ValueError required_message)
  | Some cs =>
      match from_connection_string cs with
      | Ret client => Ret (Service client)
      | Raise e => Raise e
      end
  end.

End ServiceInit.

(** ** [AzureBlobClient] (src/configuration/azure_connection.py)

    The class attribute [AzureBlobClient.blob_service_client] is state of
    the process, like the environment.  A client built by the SDK is an
    object of its own: it is told apart from the others by the order in
    which the factory built it.  [clients] lists every client built so far
    and [getenv_calls] counts the reads of the environment. *)

Module azure_connection.

Record client : Type := Client {
  client_id : nat;
  client_connection_string : string
}.

Record process : Type := Process {
  environ : gmap string string;
  class_blob_service_client : option client;
  clients : list client;
  getenv_calls : nat
}.

(** An instance, with its attribute [self.blob_service_client]. *)
Record AzureBlobClient : Type := Instance {
  blob_service_client : option client
}.

Definition set_environ (env : gmap string string) (p : process) : process :=
  Process env (class_blob_service_client p) (clients p) (getenv_calls p).

Definition initial (env : gmap string string) : process :=
  Process env None [] 0.

Section Provider.

(** [credentials.AZURE_STORAGE_CONNECTION_STRING]: the module
    [azure_credentials] is not part of the sources; the constant is the
    name of the environment variable. *)
Variable connection_string_env_key : string.

(** The connection strings the SDK's factory refuses, and with what. *)
Variable sdk_rejects : string -> option pyexc.

Definition os_getenv (key : string) : M process (option string) := fun p =>
  (Ret (environ p !! key),
   Process (environ p) (class_blob_service_client p) (clients p) (S (getenv_calls p))).

Definition from_connection_string (connection_string : string) : M process client :=
  match sdk_rejects connection_string with
  | Some e => raise e
  | None => fun p =>
      let c := Client (length (clients p)) connection_string in
      (Ret c, Process (environ p) (class_blob_service_client p)
                (clients p ++ [c]) (getenv_calls p))
  end.

Definition set_class_blob_service_client (c : client) : M process unit :=
  modify (fun p => Process (environ p) (Some c) (clients p) (getenv_calls p)).

Definition not_set_message : string :=
  "Environment variable: " +:+ connection_string_env_key +:+ " is not set.".

Definition init : M process AzureBlobClient :=
  p <- get ;;
  match class_blob_service_client p with
  | None =>
      connection_string <- os_getenv connection_string_env_key ;;
      match connection_string with
      | None => raise (PlainException not_set_message)
      | Some connection_string =>
          c <- from_connection_string connection_string ;;
          set_class_blob_service_client c
      end
  | Some _ => ret tt
  end ;;
  p <- get ;;
  ret (Instance (class_blob_service_client p)).

(** Every client the factory has built is the one the class holds. *)
Definition one_client (p : process) : Prop :=
  clients p = match class_blob_service_client p with
              | Some c => [c]
              | None => []
              end.

(** What the rest of the process may do between two constructions. *)
Inductive action : Type :=
| Construct
| Putenv (key value : string)
| Unsetenv (key : string).

(** A run of the process; the outcomes of its constructions, oldest first. *)
Fixpoint run (acts : list action) (p : process)
    : list (outcome AzureBlobClient) * process :=
  match acts with
  | [] => ([], p)
  | Construct :: acts' =>
      let '(o, p') := init p in
      let '(os, p'') := run acts' p' in
      (o :: os, p'')
  | Putenv k v :: acts' => run acts' (set_environ (<[k := v]> (environ p)) p)
  | Unsetenv k :: acts' => run acts' (set_environ (delete k (environ p)) p)
  end.

End Provider.

End azure_connection.

(** ** Inputs on which the code is run below *)

Module Examples.

(** A model is a number; it answers a number by adding itself to it. *)
Definition model_predict (m n : nat) : outcome nat := Ret (m + n).

(** A deserialiser that reads a model from the first byte of a file and
    refuses an empty file. *)
Definition loads (data : bytes) : outcome nat :=
  match data with
  | [] => Raise (LibraryError "pickle" "EOFError: Ran out of input")
  | x :: _ => Ret (Byte.to_nat x)
  end.

Definition estimator : Proj1EstimatorAzure :=
  Estimator 0 "UseDevelopmentStorage=true" "models" "model.pkl".

(** The model blob is in place, the transport is healthy. *)
Definition store_with_model : world nat :=
  World {[ "models" := {[ "model.pkl" := b "*" ]} ]} ∅ [] [] ∅.

(** The model blob is there and holds nothing. *)
Definition store_with_empty_blob : world nat :=
  World {[ "models" := {[ "model.pkl" := [] ]} ]} ∅ [] [] ∅.

(** The container is there, the model blob is not; a file from an earlier
    run sits at the temporary path. *)
Definition store_without_model : world nat :=
  World {[ "models" := ∅ ]} {[ "temp_model.pkl" := b "old" ]} [] [] ∅.

(** The service answers the next request with 403. *)
Definition store_forbidden : world nat :=
  World {[ "models" := {[ "model.pkl" := b "*" ]} ]} ∅
    [Some (HttpResponseError 403)] [] ∅.

(** No container yet. *)
Definition empty_account : world nat := World ∅ ∅ [] [] ∅.

(** A local model file to upload. *)
Definition disk_with_model : world nat :=
  World {[ "models" := ∅ ]} {[ "model.pkl" := b "*" ]} [] [] ∅.

Definition accept_all (cs : string) : option pyexc := None.

End Examples.

(** ** What the methods are measured against *)

(** The bytes of a blob, if the container and the blob are there. *)
Definition blob_at (r : gmap string (gmap string bytes)) (c bl : string)
    : option bytes :=
  match r !! c with
  | Some blobs => blobs !! bl
  | None => None
  end.

(** What [pickle.load] makes of the bytes of a file, by the binding of the
    name [pickle]. *)
Definition unpickled {Model} (pickle : option (bytes -> outcome Model))
    (data : bytes) : outcome Model :=
  match pickle with
  | None => Raise (NameError "pickle")
  | Some loads => loads data
  end.


(** ** [Proj1EstimatorAzure.__init__] (src/entity/s3_estimator.py)

    [__init__] receives the object it initialises: [self_id] is that
    object.  It stores its three arguments, builds the storage service from
    the connection string, and only then sets [self.loaded_model] to
    [None].  The service it builds is returned with the instance. *)

Section EstimatorInit.
Context {Model Client : Type}.

Variable from_connection_string : string -> outcome Client.

Definition Proj1EstimatorAzure_init (self_id : nat)
    (connection_string container_name model_path : string)
    (environ : gmap string string)
    : M (world Model) (Proj1EstimatorAzure * AzureBlobStorageService Client) :=
  let self := Estimator self_id connection_string container_name model_path in
  azure_storage <-
    of_outcome (AzureBlobStorageService_init from_connection_string
                  (Some connection_string) environ) ;;
  modify (fun w => set_loaded_models (delete self_id (loaded_models w)) w) ;;
  ret (self, azure_storage).

End EstimatorInit.

(** ** More inputs *)

Module Scenarios.

(** pandas and the codec stood in for by the identity on text. *)
Definition to_csv (df : string) : string := df.
Definition read_csv (text : string) : outcome string := Ret text.
Definition utf8_encode (s : string) : bytes := String.list_byte_of_string s.
Definition utf8_decode (data : bytes) : outcome string :=
  Ret (String.string_of_list_byte data).

(** A factory that takes a string with a [key=value] setting in it and
    refuses the others; 61 is the code of the equals sign. *)
Fixpoint has_setting (cs : string) : bool :=
  match cs with
  | EmptyString => false
  | String c rest => if Ascii.eqb c (Ascii.ascii_of_nat 61) then true else has_setting rest
  end.

Definition sdk_rejects (cs : string) : option pyexc :=
  if has_setting cs then None
  else Some (ValueError "Connection string is either blank or malformed.").

Definition from_connection_string (cs : string) : outcome string :=
  match sdk_rejects cs with
  | Some e => Raise e
  | None => Ret cs
  end.

(** A model whose [predict] raises. *)
Definition broken_predict (m n : nat) : outcome nat :=
  Raise (LibraryError "model" "shape mismatch").

(** Two containers with a blob each, two local files, a stale model in the
    slot of instance 7. *)
Definition busy : world nat :=
  World {[ "models" := {[ "model.pkl" := b "*"; "old.pkl" := b "o" ]};
           "data" := {[ "train.csv" := b "a,b" ]} ]}
        {[ "new.pkl" := b "n"; "notes.txt" := b "keep" ]}
        [] [] {[ 7 := 1 ]}.


(** The model of instance 0 is loaded already. *)
Definition warm : world nat :=
  World (remote busy) (fs busy) [] [] {[ 0 := 42; 7 := 1 ]}.

End Scenarios.

(** * Facts *)

(** ** Running the monad *)

Section MonadFacts.
Context {S A B : Type}.

Lemma bind_Ret (m : M S A) (k : A -> M S B) s a s' :
  m s = (Ret a, s') -> bind m k s = k a s'.
Proof. unfold bind. by intros ->. Qed.

Lemma bind_Raise (m : M S A) (k : A -> M S B) s e s' :
  m s = (Raise e, s') -> bind m k s = (Raise e, s').
Proof. unfold bind. by intros ->. Qed.

Lemma try_except_Ret cls (m : M S A) h s a s' :
  m s = (Ret a, s') -> try_except cls m h s = (Ret a, s').
Proof. unfold try_except. by intros ->. Qed.

Lemma try_except_caught cls (m : M S A) h s e s' :
  m s = (Raise e, s') -> cls e = true -> try_except cls m h s = h e s'.
Proof. unfold try_except. by intros -> ->. Qed.

Lemma try_except_passed cls (m : M S A) h s e s' :
  m s = (Raise e, s') -> cls e = false -> try_except cls m h s = (Raise e, s').
Proof. unfold try_except. by intros -> ->. Qed.

(** [except Exception as e: ...; raise] is transparent. *)
Lemma try_reraise cls (m : M S A) s :
  try_except cls m (fun e => raise e) s = m s.
Proof.
  unfold try_except, raise. destruct (m s) as [[a|e] s']; [done|].
  by destruct (cls e).
Qed.
End MonadFacts.

Lemma count_app p t1 t2 : count p (t1 ++ t2) = count p t1 + count p t2.
Proof. induction t1 as [|ev t1 IH]; simpl; [done|]. rewrite IH. lia. Qed.

Ltac unfold_prims :=
  unfold sdk_container_exists, sdk_create_container, sdk_blob_exists,
    sdk_upload_blob, sdk_download_blob, sdk_delete_blob,
    open_wb, open_rb, file_write, os_remove, log, transport, next_fault,
    set_remote, set_fs, set_faults, set_trace, set_loaded_models,
    bind, ret, raise, get, modify, of_outcome in *.

Ltac py_cases := repeat (simpl in *; first [case_match | progress simplify_eq]).

(** Case analysis of one storage method on an arbitrary world. *)
Ltac leaf w :=
  rewrite ?try_reraise; destruct w as [r f fl t lm]; unfold_prims;
  intros; py_cases.

(** ** The storage service, method by method *)

Section StorageFacts.
Context {Model : Type}.
Implicit Types w : world Model.

Lemma download_blob_Ret c bl p w w1 :
  download_blob c bl p w = (Ret tt, w1) ->
  exists blobs data,
    remote w !! c = Some blobs /\ blobs !! bl = Some data /\
    next_fault w = None /\
    w1 = World (remote w) (<[p := data]> (fs w)) (tail (faults w))
           (trace w ++ [EOpenWrite p; EDownloadBlob c bl; EWrite p])
           (loaded_models w).
Proof.
  unfold download_blob. leaf w; eexists _, _; repeat split; eauto; simpl;
    rewrite ?lookup_insert_eq; simpl;
    rewrite ?insert_insert_eq, <- ?app_assoc; done.
Qed.

Lemma download_blob_Raise c bl p w e w1 :
  download_blob c bl p w = (Raise e, w1) ->
  w1 = World (remote w) (<[p := []]> (fs w)) (tail (faults w))
         (trace w ++ [EOpenWrite p; EDownloadBlob c bl])
         (loaded_models w).
Proof.
  unfold download_blob. leaf w; rewrite <- ?app_assoc; done.
Qed.

Lemma download_blob_healthy c bl p w blobs data :
  next_fault w = None ->
  remote w !! c = Some blobs -> blobs !! bl = Some data ->
  download_blob c bl p w =
    (Ret tt, World (remote w) (<[p := data]> (fs w)) (tail (faults w))
               (trace w ++ [EOpenWrite p; EDownloadBlob c bl; EWrite p])
               (loaded_models w)).
Proof.
  unfold download_blob. leaf w; simpl;
    rewrite ?lookup_insert_eq; simpl;
    rewrite ?insert_insert_eq, <- ?app_assoc; done.
Qed.





Lemma blob_exists_healthy c bl w :
  next_fault w = None ->
  blob_exists c bl w =
    (Ret (match remote w !! c with
          | Some blobs => match blobs !! bl with Some _ => true | None => false end
          | None => false
          end),
     World (remote w) (fs w) (tail (faults w))
       (trace w ++ [EBlobExists c bl]) (loaded_models w)).
Proof. unfold blob_exists. leaf w; done. Qed.

Lemma upload_file_Ret p c bl w w1 :
  upload_file p c bl w = (Ret tt, w1) ->
  exists data blobs,
    fs w !! p = Some data /\ remote w !! c = Some blobs /\
    next_fault w = None /\
    w1 = World (<[c := <[bl := data]> blobs]> (remote w)) (fs w)
           (tail (faults w)) (trace w ++ [EOpenRead p; EUploadBlob c bl])
           (loaded_models w).
Proof.
  unfold upload_file. leaf w; eexists _, _; repeat split; eauto;
    simpl; rewrite <- ?app_assoc; done.
Qed.

Lemma upload_file_Raise p c bl w e w1 :
  upload_file p c bl w = (Raise e, w1) ->
  fs w1 = fs w /\ remote w1 = remote w /\ loaded_models w1 = loaded_models w.
Proof. unfold upload_file. leaf w; done. Qed.

Lemma open_rb_present p w data :
  fs w !! p = Some data ->
  open_rb p w = (Ret data, set_trace (trace w ++ [EOpenRead p]) w).
Proof. leaf w; done. Qed.

Lemma os_remove_present p w data :
  fs w !! p = Some data ->
  os_remove p w =
    (Ret tt, set_fs (delete p (fs w)) (set_trace (trace w ++ [ERemove p]) w)).
Proof. leaf w; done. Qed.
End StorageFacts.

(** ** The adapter *)

Section EstimatorFacts.
Context {Model DataFrame Prediction : Type}.
Variable model_predict : Model -> DataFrame -> outcome Prediction.
Variable pickle : option (bytes -> outcome Model).
Implicit Types w : world Model.
Implicit Types self : Proj1EstimatorAzure.

Lemma load_model_Ret self w m w1 :
  load_model pickle self w = (Ret m, w1) ->
  exists loads blobs data,
    pickle = Some loads /\
    remote w !! container_name self = Some blobs /\
    blobs !! model_path self = Some data /\
    loads data = Ret m /\
    next_fault w = None /\
    w1 = after_load self w.
Proof.
  unfold load_model, try_except.
  destruct (download_blob (container_name self) (model_path self)
              temp_file_path w) as [[[]|e] wd] eqn:Hd.
  2:{ rewrite (bind_Raise _ _ _ _ _ Hd). done. }
  rewrite (bind_Ret _ _ _ _ _ Hd).
  apply download_blob_Ret in Hd as (blobs & data & Hc & Hb & Hf & ->).
  erewrite bind_Ret; [|eapply open_rb_present; simpl; apply lookup_insert_eq].
  unfold pickle_load. destruct pickle as [loads|]; [|done].
  unfold bind at 1. unfold bind at 1. unfold log, modify, of_outcome. simpl.
  destruct (loads data) as [m'|e] eqn:Hl; [|done].
  erewrite bind_Ret; [|eapply os_remove_present; simpl; apply lookup_insert_eq].
  unfold ret. intros [= <- <-].
  exists loads, blobs, data. repeat split; try done.
  unfold after_load, set_fs, set_trace. simpl.
  by rewrite delete_insert_eq, <- !app_assoc.
Qed.

Lemma load_model_Raise self w e w1 :
  load_model pickle self w = (Raise e, w1) ->
  (exists cause, e = MyException cause) /\
  is_Some (fs w1 !! temp_file_path) /\
  remote w1 = remote w /\
  loaded_models w1 = loaded_models w /\
  faults w1 = tail (faults w) /\
  count is_download (trace w1) = S (count is_download (trace w)).
Proof.
  unfold load_model, try_except.
  destruct (download_blob (container_name self) (model_path self)
              temp_file_path w) as [[[]|e'] wd] eqn:Hd.
  - rewrite (bind_Ret _ _ _ _ _ Hd).
    apply download_blob_Ret in Hd as (blobs & data & Hc & Hb & Hf & ->).
    erewrite bind_Ret; [|eapply open_rb_present; simpl; apply lookup_insert_eq].
    unfold pickle_load. destruct pickle as [loads|].
    + unfold bind at 1. unfold bind at 1. unfold log, modify, of_outcome. simpl.
      destruct (loads data) as [m'|e''] eqn:Hl.
      * erewrite bind_Ret;
          [|eapply os_remove_present; simpl; apply lookup_insert_eq].
        done.
      * unfold raise. intros [= <- <-]. simpl.
        rewrite lookup_insert_eq, !count_app. simpl. repeat split; eauto with lia.
    + unfold bind, raise. simpl. intros [= <- <-]. simpl.
      rewrite lookup_insert_eq, !count_app. simpl. repeat split; eauto with lia.
  - rewrite (bind_Raise _ _ _ _ _ Hd). unfold raise. intros [= <- <-].
    apply download_blob_Raise in Hd as ->. simpl.
    rewrite lookup_insert_eq, !count_app. simpl. repeat split; eauto with lia.
Qed.

Lemma load_model_healthy self w loads blobs data m :
  pickle = Some loads ->
  next_fault w = None ->
  remote w !! container_name self = Some blobs ->
  blobs !! model_path self = Some data ->
  loads data = Ret m ->
  load_model pickle self w = (Ret m, after_load self w).
Proof.
  intros Hp Hf Hc Hb Hl. unfold load_model, try_except.
  erewrite bind_Ret; [|by eapply download_blob_healthy].
  erewrite bind_Ret; [|eapply open_rb_present; simpl; apply lookup_insert_eq].
  unfold pickle_load. rewrite Hp.
  unfold bind at 1. unfold bind at 1. unfold log, modify, of_outcome. simpl.
  rewrite Hl.
  erewrite bind_Ret; [|eapply os_remove_present; simpl; apply lookup_insert_eq].
  unfold ret, after_load, set_fs, set_trace. simpl.
  by rewrite delete_insert_eq, <- !app_assoc.
Qed.


Lemma load_model_frame self w :
  loaded_models (load_model pickle self w).2 = loaded_models w /\
  remote (load_model pickle self w).2 = remote w.
Proof.
  destruct (load_model pickle self w) as [[m|e] w1] eqn:H; simpl.
  - by apply load_model_Ret in H as (? & ? & ? & _ & _ & _ & _ & _ & ->).
  - by apply load_model_Raise in H as (_ & _ & ? & ? & _).
Qed.

(** [predict] when [self.loaded_model] is set: the model answers, and
    nothing else happens. *)
Lemma predict_cached self dataframe w m :
  loaded_model self w = Some m ->
  predict model_predict pickle self dataframe w
  = (wrapped (model_predict m dataframe), w).
Proof.
  intros H. unfold predict, try_except, bind, get, ret, of_outcome.
  rewrite H. by destruct (model_predict m dataframe).
Qed.

(** [predict] when [self.loaded_model] is [None]: it is [load_model],
    then the assignment to the attribute, then the model's answer. *)
Lemma predict_empty self dataframe w :
  loaded_model self w = None ->
  predict model_predict pickle self dataframe w =
    match load_model pickle self w with
    | (Ret m, w1) =>
        (wrapped (model_predict m dataframe),
         set_loaded_models (<[instance_id self := m]> (loaded_models w1)) w1)
    | (Raise e, w1) => (Raise (MyException e), w1)
    end.
Proof.
  intros H. unfold predict, try_except, bind, get, ret, of_outcome.
  rewrite H. unfold set_loaded_model, modify.
  destruct (load_model pickle self w) as [[m|e] w1]; [|done].
  by destruct (model_predict m dataframe).
Qed.


Lemma is_model_present_healthy self w :
  next_fault w = None ->
  (is_model_present self w).1 =
    Ret (match remote w !! container_name self with
         | Some blobs => match blobs !! model_path self with
                         | Some _ => true
                         | None => false
                         end
         | None => false
         end).
Proof.
  intros H. unfold is_model_present, try_except.
  by rewrite (blob_exists_healthy _ _ _ H).
Qed.


(** [save_model], by the outcome of the upload. *)
Lemma save_model_unfold self from_file remove w :
  save_model self from_file remove w =
    match upload_file from_file (container_name self) (model_path self) w with
    | (Ret _, w1) =>
        if remove
        then (wrapped (os_remove from_file w1).1, (os_remove from_file w1).2)
        else (Ret tt, w1)
    | (Raise e, w1) => (Raise (MyException e), w1)
    end.
Proof.
  unfold save_model, try_except, bind.
  destruct (upload_file _ _ _ w) as [[[]|e] w1]; [|done].
  destruct remove; [|done].
  by destruct (os_remove from_file w1) as [[[]|e] w2].
Qed.


(** With a deserialiser bound to [pickle], a first [predict] loads the model
    and keeps it, and the next one asks the model and nothing else. *)
Lemma predict_loads_once_then_reuses loads self df df' w blobs data m :
  pickle = Some loads ->
  loaded_model self w = None ->
  next_fault w = None ->
  remote w !! container_name self = Some blobs ->
  blobs !! model_path self = Some data ->
  loads data = Ret m ->
  exists w1,
    predict model_predict pickle self df w = (wrapped (model_predict m df), w1) /\
    loaded_model self w1 = Some m /\
    count is_download (trace w1) = S (count is_download (trace w)) /\
    predict model_predict pickle self df' w1 = (wrapped (model_predict m df'), w1).
Proof.
  intros Hp Hnone Hf Hc Hb Hl.
  eexists. rewrite (predict_empty _ _ _ Hnone).
  rewrite (load_model_healthy _ _ _ _ _ _ Hp Hf Hc Hb Hl).
  split; [reflexivity|].
  assert (Hs : loaded_model self
            (set_loaded_models
               (<[instance_id self := m]> (loaded_models (after_load self w)))
               (after_load self w)) = Some m).
  { unfold loaded_model. simpl. apply lookup_insert_eq. }
  split; [exact Hs|]. split.
  - simpl. rewrite count_app. simpl. lia.
  - by apply predict_cached.
Qed.

End EstimatorFacts.

Section ContainerFacts.
Context {Model : Type}.
Implicit Types w : world Model.


End ContainerFacts.

(** ** The CSV path

    What the repository's own code does to a table on its way to the
    account and back: the blob holds the UTF-8 bytes of [to_csv]'s text,
    and reading it back parses that very text.  What the table that comes
    back has in common with the one that went in is then a matter of
    [read_csv (to_csv df)], that is of pandas. *)

Section CsvFacts.
Context {Model DataFrame : Type}.
Variable to_csv : DataFrame -> string.
Variable read_csv : string -> outcome DataFrame.
Variable utf8_encode : string -> bytes.
Variable utf8_decode : bytes -> outcome string.
Hypothesis utf8_round_trip : forall s, utf8_decode (utf8_encode s) = Ret s.
Implicit Types w : world Model.

Lemma upload_dataframe_as_csv_Ret df c bl w w1 :
  upload_dataframe_as_csv to_csv utf8_encode df c bl w = (Ret tt, w1) ->
  exists blobs,
    remote w1 !! c = Some blobs /\
    blobs !! bl = Some (utf8_encode (to_csv df)) /\
    fs w1 = fs w.
Proof.
  unfold upload_dataframe_as_csv. rewrite try_reraise.
  destruct w as [r f fl t lm]. unfold_prims. intros H.
  py_cases; eexists; simpl; rewrite !lookup_insert_eq; split_and!; try done;
    apply lookup_insert_eq.
Qed.

Lemma read_blob_as_dataframe_healthy c bl w blobs data :
  next_fault w = None ->
  remote w !! c = Some blobs -> blobs !! bl = Some data ->
  (read_blob_as_dataframe read_csv utf8_decode c bl w).1
    = match utf8_decode data with
      | Ret csv_content => read_csv csv_content
      | Raise e => Raise e
      end.
Proof.
  unfold read_blob_as_dataframe. rewrite try_reraise.
  destruct w as [r f fl t lm]. unfold_prims. intros.
  py_cases; congruence.
Qed.

Lemma csv_text_round_trip df c bl w w1 :
  upload_dataframe_as_csv to_csv utf8_encode df c bl w = (Ret tt, w1) ->
  next_fault w1 = None ->
  (read_blob_as_dataframe read_csv utf8_decode c bl w1).1 = read_csv (to_csv df).
Proof.
  intros (blobs & Hc & Hb & _)%upload_dataframe_as_csv_Ret Hf.
  rewrite (read_blob_as_dataframe_healthy _ _ _ _ _ Hf Hc Hb).
  by rewrite utf8_round_trip.
Qed.

End CsvFacts.

(** ** The two constructors *)

Section ServiceInitFacts.
Context {Client : Type}.
Implicit Types sdk : string -> outcome Client.

Lemma truthy_Some (s : option string) :
  truthy s = true <-> exists cs, s = Some cs /\ cs <> "".
Proof.
  destruct s as [[|a cs]|]; simpl; split; try done.
  - intros (cs & [= <-] & ?). done.
  - eauto.
  - intros (cs & ? & _). done.
Qed.

Lemma init_without_credential sdk connection_string environ :
  truthy (resolved_connection_string connection_string environ) = false ->
  AzureBlobStorageService_init sdk connection_string environ
    = Raise (ValueError required_message).
Proof.
  unfold AzureBlobStorageService_init.
  by destruct (resolved_connection_string connection_string environ) as [[|a cs]|].
Qed.

Lemma init_with_credential sdk connection_string environ :
  truthy (resolved_connection_string connection_string environ) = true ->
  exists cs,
    resolved_connection_string connection_string environ = Some cs /\ cs <> "" /\
    AzureBlobStorageService_init sdk connection_string environ
      = match sdk cs with Ret client => Ret (Service client) | Raise e => Raise e end.
Proof.
  unfold AzureBlobStorageService_init.
  destruct (resolved_connection_string connection_string environ) as [[|a cs]|];
    try done.
  intros _. by exists (String a cs).
Qed.

End ServiceInitFacts.

Section ProviderFacts.
Import azure_connection.
Variable key : string.
Variable sdk_rejects : string -> option pyexc.
Implicit Types p : process.

Lemma init_cached p c :
  class_blob_service_client p = Some c ->
  init key sdk_rejects p = (Ret (Instance (Some c)), p).
Proof.
  intros H. unfold init, bind, get, ret. rewrite H. simpl. by rewrite H.
Qed.

Lemma init_unset p :
  class_blob_service_client p = None -> environ p !! key = None ->
  init key sdk_rejects p
    = (Raise (PlainException (not_set_message key)),
       Process (environ p) None (clients p) (S (getenv_calls p))).
Proof.
  destruct p as [en cls cl n]. simpl. intros -> He.
  unfold init, bind, get, ret, os_getenv, raise. simpl. by rewrite He.
Qed.

Lemma init_rejected p cs e :
  class_blob_service_client p = None -> environ p !! key = Some cs ->
  sdk_rejects cs = Some e ->
  init key sdk_rejects p
    = (Raise e, Process (environ p) None (clients p) (S (getenv_calls p))).
Proof.
  destruct p as [en cls cl n]. simpl. intros -> He Hr.
  unfold init, bind, get, ret, os_getenv, raise, from_connection_string.
  simpl. by rewrite He, Hr.
Qed.

Lemma init_first p cs :
  class_blob_service_client p = None -> environ p !! key = Some cs ->
  sdk_rejects cs = None ->
  init key sdk_rejects p
    = (Ret (Instance (Some (Client (length (clients p)) cs))),
       Process (environ p) (Some (Client (length (clients p)) cs))
         (clients p ++ [Client (length (clients p)) cs]) (S (getenv_calls p))).
Proof.
  destruct p as [en cls cl n]. simpl. intros -> He Hr.
  unfold init, bind, get, ret, os_getenv, raise, from_connection_string,
    set_class_blob_service_client, modify.
  simpl. by rewrite He, Hr.
Qed.

(** The four ways a construction can go. *)
Lemma init_cases p :
  (exists c, class_blob_service_client p = Some c /\
     init key sdk_rejects p = (Ret (Instance (Some c)), p)) \/
  (class_blob_service_client p = None /\
   exists e, init key sdk_rejects p
     = (Raise e, Process (environ p) None (clients p) (S (getenv_calls p)))) \/
  (class_blob_service_client p = None /\
   exists cs, init key sdk_rejects p
     = (Ret (Instance (Some (Client (length (clients p)) cs))),
        Process (environ p) (Some (Client (length (clients p)) cs))
          (clients p ++ [Client (length (clients p)) cs]) (S (getenv_calls p)))).
Proof.
  destruct (class_blob_service_client p) as [c|] eqn:H.
  { left. exists c. split; [done|]. by apply init_cached. }
  right. destruct (environ p !! key) as [cs|] eqn:He.
  - destruct (sdk_rejects cs) as [e|] eqn:Hr.
    + left. split; [done|]. exists e. by eapply init_rejected.
    + right. split; [done|]. exists cs. by apply init_first.
  - left. split; [done|]. eexists. by apply init_unset.
Qed.

Lemma init_one_client p :
  one_client p -> one_client (init key sdk_rejects p).2.
Proof.
  unfold one_client. intros Hinv.
  destruct (init_cases p) as [(c & H & ->)|[(H & e & ->)|(H & cs & ->)]]; simpl.
  - done.
  - by rewrite H in Hinv.
  - rewrite H in Hinv. by rewrite Hinv.
Qed.

Lemma init_instance p inst p' :
  init key sdk_rejects p = (Ret inst, p') ->
  exists c, blob_service_client inst = Some c /\ class_blob_service_client p' = Some c.
Proof.
  destruct (init_cases p) as [(c & H & ->)|[(H & e & ->)|(H & cs & ->)]];
    intros [= <- <-]; eauto.
Qed.

Lemma init_keeps_class p c :
  class_blob_service_client p = Some c ->
  class_blob_service_client (init key sdk_rejects p).2 = Some c.
Proof. intros H. by rewrite (init_cached _ _ H). Qed.

Lemma run_keeps_class acts p c :
  class_blob_service_client p = Some c ->
  class_blob_service_client (run key sdk_rejects acts p).2 = Some c.
Proof.
  revert p. induction acts as [|[|k v|k] acts IH]; intros p H; simpl.
  - done.
  - rewrite (init_cached _ _ H).
    specialize (IH p H). by destruct (run key sdk_rejects acts p).
  - by apply IH.
  - by apply IH.
Qed.

Lemma run_one_client acts p :
  one_client p -> one_client (run key sdk_rejects acts p).2.
Proof.
  revert p. induction acts as [|[|k v|k] acts IH]; intros p H; simpl.
  - done.
  - pose proof (init_one_client p H) as H'.
    destruct (init key sdk_rejects p) as [o p'].
    specialize (IH p' H'). by destruct (run key sdk_rejects acts p').
  - by apply IH.
  - by apply IH.
Qed.

Lemma run_instances acts p inst :
  Ret inst ∈ (run key sdk_rejects acts p).1 ->
  exists c, blob_service_client inst = Some c /\
            class_blob_service_client (run key sdk_rejects acts p).2 = Some c.
Proof.
  revert p. induction acts as [|[|k v|k] acts IH]; intros p; simpl.
  - intros H. by apply elem_of_nil in H.
  - destruct (init key sdk_rejects p) as [o p'] eqn:Hi.
    pose proof (IH p') as IH'. pose proof (run_keeps_class acts p') as Hk.
    destruct (run key sdk_rejects acts p') as [os p''].
    simpl in *. intros [Heq|Hin]%elem_of_cons.
    + subst o. apply init_instance in Hi as (c & ? & ?). eauto.
    + by apply IH'.
  - apply IH.
  - apply IH.
Qed.

End ProviderFacts.

(** * The claims *)

(** C1.  The claim: every call of [load_model] removes "temp_model.pkl"
    before it returns or raises.  The code does not: [os.remove] is the last
    statement of the [try] block, so it runs only when the download and the
    deserialisation have both returned.  Three calls that raise and leave
    the file behind: the blob holds content the deserialiser refuses; the
    module as it is written, where the name [pickle] is unbound; the blob
    is missing, and the file that [open(..., "wb")] emptied stays. *)
Theorem load_model_leaves_temp_file_on_error :
  (load_model (Some Examples.loads) Examples.estimator Examples.store_with_empty_blob).1
    = Raise (MyException (LibraryError "pickle" "EOFError: Ran out of input")) /\
  fs (load_model (Some Examples.loads) Examples.estimator Examples.store_with_empty_blob).2
    !! temp_file_path = Some [] /\
  (load_model s3_estimator_pickle Examples.estimator Examples.store_with_model).1
    = Raise (MyException (NameError "pickle")) /\
  fs (load_model s3_estimator_pickle Examples.estimator Examples.store_with_model).2
    !! temp_file_path = Some (b "*") /\
  (load_model (Some Examples.loads) Examples.estimator Examples.store_without_model).1
    = Raise (MyException (ResourceNotFoundError "BlobNotFound")) /\
  fs (load_model (Some Examples.loads) Examples.estimator Examples.store_without_model).2
    !! temp_file_path = Some [].
Proof. vm_compute. repeat split. Qed.

(** C2.  The claim: [is_model_present] returns [False] when the existence
    check raises, whatever it raises.  The code catches [MyException] only,
    and [blob_exists] re-raises what the SDK raised: a 403 from the service
    comes out of [is_model_present] as it went in.  An absent blob does give
    [False]. *)
Theorem is_model_present_lets_sdk_error_through :
  (is_model_present Examples.estimator Examples.store_forbidden).1
    = Raise (HttpResponseError 403) /\
  (is_model_present Examples.estimator Examples.store_without_model).1 = Ret false.
Proof. vm_compute. split; reflexivity. Qed.

(** C3.  The claim: a first [predict] on an instance with an empty slot
    loads the model once and stores it, and later calls download nothing.
    In the module as it is written [pickle] is unbound, so [load_model]
    raises on every call: the first [predict] raises, the slot stays empty,
    and a second [predict] downloads the blob again. *)
Theorem predict_stores_nothing_without_pickle :
  (predict Examples.model_predict s3_estimator_pickle Examples.estimator 1
     Examples.store_with_model).1
    = Raise (MyException (MyException (NameError "pickle"))) /\
  loaded_model Examples.estimator
    (predict Examples.model_predict s3_estimator_pickle Examples.estimator 1
       Examples.store_with_model).2 = None /\
  count is_download
    (trace (predict Examples.model_predict s3_estimator_pickle Examples.estimator 1
              Examples.store_with_model).2) = 1 /\
  count is_download
    (trace (predict Examples.model_predict s3_estimator_pickle Examples.estimator 2
              (predict Examples.model_predict s3_estimator_pickle Examples.estimator 1
                 Examples.store_with_model).2).2) = 2.
Proof. vm_compute. repeat split. Qed.





(** C7.  [save_model(from_file, remove)]: the local file is deleted exactly
    when [remove] is true and the upload returned; when [save_model] raises
    the local files are as they were, and so they are when [remove] is
    false; no other local file is ever touched; and [save_model] raises
    exactly when the upload does. *)
Theorem save_model_removes_only_after_upload {Model : Type}
    (self : Proj1EstimatorAzure) (from_file : string) (remove : bool)
    (w : world Model) :
  (is_Some (fs w !! from_file) /\
   fs (save_model self from_file remove w).2 !! from_file = None
   <-> remove = true /\
       (upload_file from_file (container_name self) (model_path self) w).1 = Ret tt) /\
  (raised (save_model self from_file remove w).1 = true ->
   fs (save_model self from_file remove w).2 = fs w) /\
  (remove = false -> fs (save_model self from_file remove w).2 = fs w) /\
  (forall p, p <> from_file ->
   fs (save_model self from_file remove w).2 !! p = fs w !! p) /\
  raised (save_model self from_file remove w).1
    = raised (upload_file from_file (container_name self) (model_path self) w).1.
Proof.
  rewrite save_model_unfold.
  destruct (upload_file _ _ _ w) as [[[]|e] w1] eqn:Hu.
  - apply upload_file_Ret in Hu as (data & blobs & Hf & _ & _ & ->).
    destruct remove.
    + erewrite os_remove_present by exact Hf. simpl.
      rewrite lookup_delete_eq. split_and!; try done.
      intros p Hp. by rewrite lookup_delete_ne.
    + simpl. rewrite Hf. split_and!; try done.
      split; [by intros [_ ?] | by intros [? _]].
  - apply upload_file_Raise in Hu as (Hfs & _ & _). simpl. rewrite Hfs.
    split_and!; try done.
    split; [|by intros [_ ?]].
    intros [[x Hx] Hn]. congruence.
Qed.

Lemma save_model_removes_only_after_upload_witness :
  fs (save_model Examples.estimator "model.pkl" true Examples.disk_with_model).2
    !! "model.pkl" = None /\
  fs (save_model Examples.estimator "model.pkl" true Examples.empty_account).2
    = fs Examples.empty_account /\
  fs (save_model Examples.estimator "model.pkl" false Examples.disk_with_model).2
    = fs Examples.disk_with_model.
Proof.
  split; [|split].
  - destruct (save_model_removes_only_after_upload Examples.estimator "model.pkl" true
                Examples.disk_with_model) as [Hiff _].
    apply Hiff. split; reflexivity.
  - destruct (save_model_removes_only_after_upload Examples.estimator "model.pkl" true
                Examples.empty_account) as (_ & Hraise & _).
    apply Hraise. reflexivity.
  - destruct (save_model_removes_only_after_upload Examples.estimator "model.pkl" false
                Examples.disk_with_model) as (_ & _ & Hkeep & _).
    apply Hkeep. reflexivity.
Defined.

(** C8.  In every run of the process, whatever is done to the environment
    between the constructions: the factory has built at most one client, the
    one the class holds; every construction that returned gave an instance
    with that client.  A construction while the class holds a client returns
    it and changes nothing in the process: it reads no variable and builds
    nothing, whatever the environment holds by then.  A construction while
    the class holds none reads the variable and raises if it is unset, and
    builds the client and stores it in the class if the SDK takes the
    value. *)
Theorem connection_provider_single_handle
    (key : string) (sdk_rejects : string -> option pyexc)
    (acts : list azure_connection.action) (env : gmap string string) :
  length (azure_connection.clients
            (azure_connection.run key sdk_rejects acts
               (azure_connection.initial env)).2) <= 1 /\
  azure_connection.one_client
    (azure_connection.run key sdk_rejects acts (azure_connection.initial env)).2 /\
  (forall inst,
     Ret inst ∈ (azure_connection.run key sdk_rejects acts
                   (azure_connection.initial env)).1 ->
     is_Some (azure_connection.blob_service_client inst) /\
     azure_connection.blob_service_client inst
       = azure_connection.class_blob_service_client
           (azure_connection.run key sdk_rejects acts
              (azure_connection.initial env)).2) /\
  (forall p c env',
     azure_connection.class_blob_service_client p = Some c ->
     azure_connection.init key sdk_rejects (azure_connection.set_environ env' p)
       = (Ret (azure_connection.Instance (Some c)),
          azure_connection.set_environ env' p)) /\
  (forall p,
     azure_connection.class_blob_service_client p = None ->
     azure_connection.environ p !! key = None ->
     (azure_connection.init key sdk_rejects p).1
       = Raise (PlainException (azure_connection.not_set_message key)) /\
     azure_connection.class_blob_service_client
       (azure_connection.init key sdk_rejects p).2 = None /\
     azure_connection.clients (azure_connection.init key sdk_rejects p).2
       = azure_connection.clients p) /\
  (forall p cs,
     azure_connection.class_blob_service_client p = None ->
     azure_connection.environ p !! key = Some cs ->
     sdk_rejects cs = None ->
     exists c,
       azure_connection.client_connection_string c = cs /\
       (azure_connection.init key sdk_rejects p).1
         = Ret (azure_connection.Instance (Some c)) /\
       azure_connection.class_blob_service_client
         (azure_connection.init key sdk_rejects p).2 = Some c /\
       azure_connection.clients (azure_connection.init key sdk_rejects p).2
         = azure_connection.clients p ++ [c]).
Proof.
  assert (Hone : azure_connection.one_client
            (azure_connection.run key sdk_rejects acts (azure_connection.initial env)).2).
  { by apply run_one_client. }
  split_and!.
  - rewrite Hone. case_match; simpl; lia.
  - exact Hone.
  - intros inst Hin. apply run_instances in Hin as (c & Hi & Hc).
    rewrite Hi, Hc. eauto.
  - intros p c env' Hc. by apply init_cached.
  - intros p Hc He. by rewrite (init_unset _ _ _ Hc He).
  - intros p cs Hc He Hr. rewrite (init_first _ _ _ _ Hc He Hr). simpl.
    by eexists (azure_connection.Client _ _).
Qed.

Lemma connection_provider_single_handle_witness :
  (azure_connection.run "AZURE_STORAGE_CONNECTION_STRING" Examples.accept_all
     [azure_connection.Construct;
      azure_connection.Putenv "AZURE_STORAGE_CONNECTION_STRING" "other";
      azure_connection.Construct;
      azure_connection.Unsetenv "AZURE_STORAGE_CONNECTION_STRING";
      azure_connection.Construct]
     (azure_connection.initial
        {[ "AZURE_STORAGE_CONNECTION_STRING" := "UseDevelopmentStorage=true" ]})).1
  = [Ret (azure_connection.Instance
            (Some (azure_connection.Client 0 "UseDevelopmentStorage=true")));
     Ret (azure_connection.Instance
            (Some (azure_connection.Client 0 "UseDevelopmentStorage=true")));
     Ret (azure_connection.Instance
            (Some (azure_connection.Client 0 "UseDevelopmentStorage=true")))] /\
  length (azure_connection.clients
    (azure_connection.run "AZURE_STORAGE_CONNECTION_STRING" Examples.accept_all
       [azure_connection.Construct;
        azure_connection.Putenv "AZURE_STORAGE_CONNECTION_STRING" "other";
        azure_connection.Construct;
        azure_connection.Unsetenv "AZURE_STORAGE_CONNECTION_STRING";
        azure_connection.Construct]
       (azure_connection.initial
          {[ "AZURE_STORAGE_CONNECTION_STRING" := "UseDevelopmentStorage=true" ]})).2)
  <= 1 /\
  (azure_connection.init "AZURE_STORAGE_CONNECTION_STRING" Examples.accept_all
     (azure_connection.initial ∅)).1
  = Raise (PlainException
             "Environment variable: AZURE_STORAGE_CONNECTION_STRING is not set.").
Proof.
  split; [reflexivity|]. split.
  - apply (connection_provider_single_handle "AZURE_STORAGE_CONNECTION_STRING"
             Examples.accept_all).
  - destruct (connection_provider_single_handle "AZURE_STORAGE_CONNECTION_STRING"
                Examples.accept_all [] ∅) as (_ & _ & _ & _ & Hunset & _).
    apply (Hunset (azure_connection.initial ∅)); reflexivity.
Defined.






(** * Further properties of the code *)

(** ** The storage service *)

Section StorageMore.
Context {Model : Type}.
Implicit Types w : world Model.

Lemma blob_at_insert r c blobs bl data c' bl' :
  r !! c = Some blobs ->
  blob_at (<[c := <[bl := data]> blobs]> r) c' bl'
  = if decide ((c', bl') = (c, bl)) then Some data else blob_at r c' bl'.
Proof.
  intros Hc. unfold blob_at. destruct (decide (c' = c)) as [->|Hne].
  - rewrite lookup_insert_eq, Hc. destruct (decide (bl' = bl)) as [->|Hb].
    + rewrite lookup_insert_eq. by rewrite decide_True.
    + rewrite lookup_insert_ne by done. rewrite decide_False; [done|congruence].
  - rewrite lookup_insert_ne by done. rewrite decide_False; [done|congruence].
Qed.

Lemma blob_at_delete r c blobs bl c' bl' :
  r !! c = Some blobs ->
  blob_at (<[c := delete bl blobs]> r) c' bl'
  = if decide ((c', bl') = (c, bl)) then None else blob_at r c' bl'.
Proof.
  intros Hc. unfold blob_at. destruct (decide (c' = c)) as [->|Hne].
  - rewrite lookup_insert_eq, Hc. destruct (decide (bl' = bl)) as [->|Hb].
    + rewrite lookup_delete_eq. by rewrite decide_True.
    + rewrite lookup_delete_ne by done. rewrite decide_False; [done|congruence].
  - rewrite lookup_insert_ne by done. rewrite decide_False; [done|congruence].
Qed.

Lemma blob_exists_blob_at c bl w :
  next_fault w = None ->
  (blob_exists c bl w).1
  = Ret (match blob_at (remote w) c bl with Some _ => true | None => false end).
Proof.
  intros Hf. rewrite (blob_exists_healthy _ _ _ Hf). simpl. unfold blob_at.
  by destruct (remote w !! c).
Qed.

Lemma delete_blob_Ret c bl w w1 :
  delete_blob c bl w = (Ret tt, w1) ->
  exists blobs data,
    remote w !! c = Some blobs /\ blobs !! bl = Some data /\
    next_fault w = None /\
    w1 = World (<[c := delete bl blobs]> (remote w)) (fs w) (tail (faults w))
           (trace w ++ [EDeleteBlob c bl]) (loaded_models w).
Proof.
  unfold delete_blob. leaf w; eexists _, _; split_and!; eauto.
Qed.

Lemma delete_blob_Raise c bl w e w1 :
  delete_blob c bl w = (Raise e, w1) ->
  w1 = World (remote w) (fs w) (tail (faults w))
         (trace w ++ [EDeleteBlob c bl]) (loaded_models w) /\
  (next_fault w = None ->
   blob_at (remote w) c bl = None /\ exists code, e = ResourceNotFoundError code).
Proof.
  unfold delete_blob, blob_at. leaf w; split; try done; intros; simpl;
    repeat match goal with H : _ !! _ = _ |- _ => rewrite H end; eauto.
Qed.

Lemma delete_blob_healthy c bl w data :
  next_fault w = None -> blob_at (remote w) c bl = Some data ->
  exists blobs,
    remote w !! c = Some blobs /\
    delete_blob c bl w
    = (Ret tt, World (<[c := delete bl blobs]> (remote w)) (fs w) (tail (faults w))
                 (trace w ++ [EDeleteBlob c bl]) (loaded_models w)).
Proof.
  intros Hf Hb. destruct (delete_blob c bl w) as [[[]|e] w1] eqn:Hd.
  - apply delete_blob_Ret in Hd as (blobs & data' & Hc & _ & _ & ->). eauto.
  - apply delete_blob_Raise in Hd as [_ Hd]. destruct (Hd Hf) as [Hn _]. congruence.
Qed.

End StorageMore.



(** X2.  [upload_file] overwrites: after an upload that returned, the blob
    holds the bytes of the local file whatever it held before, every other
    blob of the account is as it was, no container has appeared or gone,
    and the local files are untouched. *)
Theorem upload_file_last_writer_wins {Model : Type}
    (file_path container_name blob_name : string) (w w1 : world Model)
    (Hupload : upload_file file_path container_name blob_name w = (Ret tt, w1)) :
  blob_at (remote w1) container_name blob_name = fs w !! file_path /\
  (forall c bl, (c, bl) <> (container_name, blob_name) ->
   blob_at (remote w1) c bl = blob_at (remote w) c bl) /\
  dom (remote w1) = dom (remote w) /\
  fs w1 = fs w.
Proof.
  apply upload_file_Ret in Hupload as (data & blobs & Hf & Hc & _ & ->). simpl.
  split_and!; try done.
  - rewrite (blob_at_insert _ _ _ _ _ _ _ Hc). by rewrite decide_True.
  - intros c bl Hne. rewrite (blob_at_insert _ _ _ _ _ _ _ Hc).
    by rewrite decide_False.
  - apply dom_insert_lookup_L. eauto.
Qed.

Lemma upload_file_last_writer_wins_witness :
  blob_at (remote Scenarios.busy) "models" "model.pkl" = Some (b "*") /\
  blob_at (remote (upload_file "new.pkl" "models" "model.pkl" Scenarios.busy).2)
    "models" "model.pkl" = Some (b "n") /\
  blob_at (remote (upload_file "new.pkl" "models" "model.pkl" Scenarios.busy).2)
    "models" "old.pkl" = Some (b "o").
Proof.
  destruct (upload_file_last_writer_wins "new.pkl" "models" "model.pkl"
              Scenarios.busy (upload_file "new.pkl" "models" "model.pkl"
                                Scenarios.busy).2)
    as (Hnew & Hother & _); [reflexivity|].
  split; [reflexivity|]. split; [exact Hnew|].
  rewrite Hother; [reflexivity|discriminate].
Defined.



(** X4.  After a [delete_blob] that returned, the blob was there and is
    gone, its container and every other blob are still there, the local
    files are untouched; [blob_exists] then answers [False] and a second
    [delete_blob] raises [ResourceNotFoundError]. *)
Theorem delete_blob_removes {Model : Type}
    (container_name blob_name : string) (w w1 : world Model)
    (Hdelete : delete_blob container_name blob_name w = (Ret tt, w1)) :
  is_Some (blob_at (remote w) container_name blob_name) /\
  blob_at (remote w1) container_name blob_name = None /\
  is_Some (remote w1 !! container_name) /\
  (forall c bl, (c, bl) <> (container_name, blob_name) ->
   blob_at (remote w1) c bl = blob_at (remote w) c bl) /\
  fs w1 = fs w /\
  (next_fault w1 = None ->
   (blob_exists container_name blob_name w1).1 = Ret false /\
   (delete_blob container_name blob_name w1).1
     = Raise (ResourceNotFoundError "BlobNotFound")).
Proof.
  apply delete_blob_Ret in Hdelete as (blobs & data & Hc & Hb & _ & ->). simpl.
  assert (Hgone : blob_at (<[container_name := delete blob_name blobs]> (remote w))
                    container_name blob_name = None).
  { rewrite (blob_at_delete _ _ _ _ _ _ Hc). by rewrite decide_True. }
  split_and!; try done.
  - unfold blob_at. rewrite Hc, Hb. eauto.
  - rewrite lookup_insert_eq. eauto.
  - intros c bl Hne. rewrite (blob_at_delete _ _ _ _ _ _ Hc).
    by rewrite decide_False.
  - intros Hf. split.
    + rewrite (blob_exists_blob_at _ _ _ Hf). simpl. by rewrite Hgone.
    + revert Hf. generalize (tail (faults w)). intros fl.
      unfold delete_blob. rewrite try_reraise. unfold_prims. simpl.
      destruct fl as [|[e|] fl]; simpl;
        rewrite ?lookup_insert_eq, ?lookup_delete_eq; done.
Qed.

Lemma delete_blob_removes_witness :
  blob_at (remote (delete_blob "models" "model.pkl" Scenarios.busy).2)
    "models" "model.pkl" = None /\
  blob_at (remote (delete_blob "models" "model.pkl" Scenarios.busy).2)
    "models" "old.pkl" = Some (b "o") /\
  (delete_blob "models" "model.pkl"
     (delete_blob "models" "model.pkl" Scenarios.busy).2).1
    = Raise (ResourceNotFoundError "BlobNotFound").
Proof.
  destruct (delete_blob_removes "models" "model.pkl" Scenarios.busy
              (delete_blob "models" "model.pkl" Scenarios.busy).2)
    as (_ & Hgone & _ & Hother & _ & Hagain); [reflexivity|].
  split; [exact Hgone|]. split.
  - rewrite Hother; [reflexivity|discriminate].
  - apply Hagain. reflexivity.
Defined.









(** ** The CSV path, end to end *)

(** X9.  With a codec that decodes what it encoded, a table uploaded by
    [upload_dataframe_as_csv] and read back by [read_blob_as_dataframe]
    comes back as [read_csv (to_csv df)]: the blob holds the bytes of the
    CSV text and nothing of the account or of the local files stands in
    between. *)
Theorem csv_upload_then_read {Model DataFrame : Type}
    (to_csv : DataFrame -> string) (read_csv : string -> outcome DataFrame)
    (utf8_encode : string -> bytes) (utf8_decode : bytes -> outcome string)
    (df : DataFrame) (container_name blob_name : string) (w w1 : world Model)
    (Hcodec : forall s, utf8_decode (utf8_encode s) = Ret s)
    (Hupload : upload_dataframe_as_csv to_csv utf8_encode df
                 container_name blob_name w = (Ret tt, w1))
    (Hhealthy : next_fault w1 = None) :
  blob_at (remote w1) container_name blob_name = Some (utf8_encode (to_csv df)) /\
  fs w1 = fs w /\
  (read_blob_as_dataframe read_csv utf8_decode container_name blob_name w1).1
    = read_csv (to_csv df).
Proof.
  pose proof (csv_text_round_trip to_csv read_csv utf8_encode utf8_decode Hcodec
                df container_name blob_name w w1 Hupload Hhealthy) as Hround.
  apply upload_dataframe_as_csv_Ret in Hupload as (blobs & Hc & Hb & Hfs).
  split_and!; try done. unfold blob_at. by rewrite Hc.
Qed.

Lemma csv_upload_then_read_witness :
  (read_blob_as_dataframe Scenarios.read_csv Scenarios.utf8_decode "data" "test.csv"
     (upload_dataframe_as_csv Scenarios.to_csv Scenarios.utf8_encode "x,y"
        "data" "test.csv" Scenarios.busy).2).1 = Ret "x,y".
Proof.
  eapply (csv_upload_then_read Scenarios.to_csv Scenarios.read_csv
            Scenarios.utf8_encode Scenarios.utf8_decode "x,y" "data" "test.csv"
            Scenarios.busy).
  - intros s. unfold Scenarios.utf8_decode, Scenarios.utf8_encode.
    by rewrite String.string_of_list_byte_of_string.
  - reflexivity.
  - reflexivity.
Defined.



(** ** The adapter, beyond the claims *)

Section AdapterMore.
Context {Model : Type}.
Variable pickle : option (bytes -> outcome Model).
Implicit Types w : world Model.
Implicit Types self : Proj1EstimatorAzure.

(** [load_model], statement by statement. *)
Lemma load_model_unfold self w :
  load_model pickle self w =
    match download_blob (container_name self) (model_path self)
            temp_file_path w with
    | (Raise e, wd) => (Raise (MyException e), wd)
    | (Ret _, wd) =>
        let wr := set_trace (trace wd ++ [EOpenRead temp_file_path]) wd in
        match fs wd !! temp_file_path with
        | None => (Raise (MyException (FileNotFoundError temp_file_path)), wr)
        | Some data =>
            match pickle with
            | None => (Raise (MyException (NameError "pickle")), wr)
            | Some loads =>
                let wl := set_trace (trace wr ++ [EPickleLoad]) wr in
                match loads data with
                | Raise e => (Raise (MyException e), wl)
                | Ret m =>
                    (Ret m, set_fs (delete temp_file_path (fs wl))
                              (set_trace (trace wl ++ [ERemove temp_file_path]) wl))
                end
            end
        end
    end.
Proof.
  unfold load_model, try_except, bind at 1.
  destruct (download_blob _ _ _ w) as [[[]|e] wd]; [|done].
  unfold pickle_load, open_rb, os_remove, log, bind, get, modify, ret, raise,
    of_outcome. simpl.
  destruct (fs wd !! temp_file_path) as [data|] eqn:Hd; [|done].
  destruct pickle as [loads|]; [|done].
  destruct (loads data) as [m|e]; [|done]. simpl. by rewrite Hd.
Qed.

Lemma load_model_after_download self w wd :
  download_blob (container_name self) (model_path self) temp_file_path w
    = (Ret tt, wd) ->
  exists data,
    blob_at (remote w) (container_name self) (model_path self) = Some data /\
    (load_model pickle self w).1 = wrapped (unpickled pickle data) /\
    forall p, p <> temp_file_path ->
      fs (load_model pickle self w).2 !! p = fs w !! p.
Proof.
  intros Hd. rewrite load_model_unfold, Hd.
  apply download_blob_Ret in Hd as (blobs & data & Hc & Hb & Hf & ->).
  exists data. simpl. rewrite lookup_insert_eq.
  split; [unfold blob_at; by rewrite Hc|].
  unfold unpickled. destruct pickle as [loads|].
  - destruct (loads data) as [m|e]; simpl; (split; [done|]); intros p Hp.
    + by rewrite lookup_delete_ne, lookup_insert_ne.
    + by rewrite lookup_insert_ne.
  - simpl. split; [done|]. intros p Hp. by rewrite lookup_insert_ne.
Qed.


End AdapterMore.

(** X11.  [save_model] publishes the model: after a call that returned,
    the blob at the adapter's path holds the bytes the local file had, the
    other blobs are as they were, and [is_model_present] answers [True]. *)
Theorem save_model_publishes {Model : Type}
    (self : Proj1EstimatorAzure) (from_file : string) (remove : bool)
    (w w1 : world Model)
    (Hsave : save_model self from_file remove w = (Ret tt, w1)) :
  is_Some (fs w !! from_file) /\
  blob_at (remote w1) (container_name self) (model_path self)
    = fs w !! from_file /\
  (forall c bl, (c, bl) <> (container_name self, model_path self) ->
   blob_at (remote w1) c bl = blob_at (remote w) c bl) /\
  (next_fault w1 = None -> (is_model_present self w1).1 = Ret true).
Proof.
  rewrite save_model_unfold in Hsave.
  destruct (upload_file from_file (container_name self) (model_path self) w)
    as [[[]|e] wu] eqn:Hu; [|done].
  apply upload_file_Ret in Hu as (data & blobs & Hf & Hc & _ & ->).
  assert (Hr : remote w1
             = <[container_name self := <[model_path self := data]> blobs]> (remote w)).
  { destruct remove; [|by injection Hsave as <-].
    erewrite os_remove_present in Hsave by exact Hf. by injection Hsave as <-. }
  simpl in *. rewrite Hr, Hf. split_and!; eauto.
  - rewrite (blob_at_insert _ _ _ _ _ _ _ Hc). by rewrite decide_True.
  - intros c bl Hne. rewrite (blob_at_insert _ _ _ _ _ _ _ Hc).
    by rewrite decide_False.
  - intros Hh. rewrite (is_model_present_healthy _ _ Hh), Hr.
  by rewrite !lookup_insert_eq.
Qed.

Lemma save_model_publishes_witness :
  blob_at (remote (save_model Examples.estimator "new.pkl" true Scenarios.busy).2)
    "models" "model.pkl" = Some (b "n") /\
  (is_model_present Examples.estimator
     (save_model Examples.estimator "new.pkl" true Scenarios.busy).2).1 = Ret true.
Proof.
  destruct (save_model_publishes Examples.estimator "new.pkl" true Scenarios.busy
              (save_model Examples.estimator "new.pkl" true Scenarios.busy).2)
    as (_ & Hblob & _ & Hpresent); [reflexivity|].
  split; [exact Hblob|]. apply Hpresent. reflexivity.
Defined.

(** X12.  What [save_model] stored is what [load_model] reads: after a
    [save_model] that returned, [load_model] hands to [pickle.load] the
    bytes the saved file had, and its outcome is that of [pickle.load] on
    them, an exception wrapped in [MyException].  In the module as it is
    written, where [pickle] is unbound, that outcome is the wrapped
    [NameError]. *)
Theorem save_model_then_load_model {Model : Type}
    (pickle : option (bytes -> outcome Model))
    (self : Proj1EstimatorAzure) (from_file : string) (remove : bool)
    (w w1 : world Model) (data : bytes)
    (Hfile : fs w !! from_file = Some data)
    (Hsave : save_model self from_file remove w = (Ret tt, w1))
    (Hhealthy : next_fault w1 = None) :
  (load_model pickle self w1).1 = wrapped (unpickled pickle data) /\
  (load_model s3_estimator_pickle self w1).1 = Raise (MyException (NameError "pickle")).
Proof.
  rewrite save_model_unfold in Hsave.
  destruct (upload_file from_file (container_name self) (model_path self) w)
    as [[[]|e] wu] eqn:Hu; [|done].
  apply upload_file_Ret in Hu as (data' & blobs & Hf & Hc & _ & ->).
  assert (data' = data) as -> by congruence.
  assert (Hr : remote w1
             = <[container_name self := <[model_path self := data]> blobs]> (remote w)).
  { destruct remove; [|by injection Hsave as <-].
    erewrite os_remove_present in Hsave by exact Hf. by injection Hsave as <-. }
  assert (Hload : forall pk : option (bytes -> outcome Model),
            (load_model pk self w1).1 = wrapped (unpickled pk data)).
  { intros pk.
    destruct (load_model_after_download pk self w1 _
                (download_blob_healthy _ _ temp_file_path w1 _ data Hhealthy
                   ltac:(rewrite Hr; apply lookup_insert_eq)
                   ltac:(apply lookup_insert_eq)))
      as (data' & Hb & Hout & _).
    rewrite Hout. unfold blob_at in Hb. rewrite Hr, !lookup_insert_eq in Hb.
    by injection Hb as <-. }
  split; [apply Hload|]. by rewrite Hload.
Qed.

Lemma save_model_then_load_model_witness :
  (load_model (Some Examples.loads) Examples.estimator
     (save_model Examples.estimator "new.pkl" false Scenarios.busy).2).1 = Ret 110.
Proof.
  destruct (save_model_then_load_model (Some Examples.loads) Examples.estimator
              "new.pkl" false Scenarios.busy
              (save_model Examples.estimator "new.pkl" false Scenarios.busy).2
              (b "n")) as [Hload _]; [reflexivity|reflexivity|reflexivity|].
  rewrite Hload. reflexivity.
Defined.


(** X14.  How [predict] reports failure.  A failure of the loading comes
    out wrapped twice, [MyException(MyException(cause))], and leaves the
    slot empty; a failure of the model's own [predict] comes out wrapped
    once; and when the model has just been loaded and then fails, it stays
    in the slot although the call raised. *)
Theorem predict_error_wrapping {Model DataFrame Prediction : Type}
    (model_predict : Model -> DataFrame -> outcome Prediction)
    (pickle : option (bytes -> outcome Model))
    (self : Proj1EstimatorAzure) (dataframe : DataFrame) (w : world Model) :
  (loaded_model self w = None ->
   forall e w1, load_model pickle self w = (Raise e, w1) ->
   predict model_predict pickle self dataframe w = (Raise (MyException e), w1) /\
   (exists cause, e = MyException cause) /\
   loaded_model self w1 = None) /\
  (forall m e, loaded_model self w = Some m ->
   model_predict m dataframe = Raise e ->
   predict model_predict pickle self dataframe w = (Raise (MyException e), w)) /\
  (loaded_model self w = None ->
   forall m w1 e, load_model pickle self w = (Ret m, w1) ->
   model_predict m dataframe = Raise e ->
   (predict model_predict pickle self dataframe w).1 = Raise (MyException e) /\
   loaded_model self (predict model_predict pickle self dataframe w).2 = Some m).
Proof.
  split_and!.
  - intros Hnone e w1 Hload.
    rewrite (predict_empty _ _ _ _ _ Hnone), Hload. split; [done|].
    apply load_model_Raise in Hload as (Hcause & _ & _ & Hslots & _).
    split; [exact Hcause|]. unfold loaded_model in *. by rewrite Hslots.
  - intros m e Hm He. rewrite (predict_cached _ _ _ _ _ _ Hm). by rewrite He.
  - intros Hnone m w1 e Hload He.
    rewrite (predict_empty _ _ _ _ _ Hnone), Hload, He. simpl.
    split; [done|]. unfold loaded_model. simpl. apply lookup_insert_eq.
Qed.

Lemma predict_error_wrapping_witness :
  (predict Examples.model_predict (Some Examples.loads) Examples.estimator 1
     Examples.store_with_empty_blob).1
    = Raise (MyException
               (MyException (LibraryError "pickle" "EOFError: Ran out of input"))) /\
  (predict Scenarios.broken_predict (Some Examples.loads) Examples.estimator 1
     Examples.store_with_model).1
    = Raise (MyException (LibraryError "model" "shape mismatch")) /\
  loaded_model Examples.estimator
    (predict Scenarios.broken_predict (Some Examples.loads) Examples.estimator 1
       Examples.store_with_model).2
    = Some 42.
Proof.
  destruct (predict_error_wrapping Examples.model_predict (Some Examples.loads)
              Examples.estimator 1 Examples.store_with_empty_blob)
    as (Hload & _ & _).
  destruct (predict_error_wrapping Scenarios.broken_predict
              (Some Examples.loads) Examples.estimator 1 Examples.store_with_model)
    as (_ & _ & Hmodel).
  split.
  - destruct (Hload eq_refl
                (MyException (LibraryError "pickle" "EOFError: Ran out of input"))
                (load_model (Some Examples.loads) Examples.estimator
                   Examples.store_with_empty_blob).2) as [Hp _]; [reflexivity|].
    rewrite Hp. reflexivity.
  - apply (Hmodel eq_refl 42
             (load_model (Some Examples.loads) Examples.estimator
                Examples.store_with_model).2); reflexivity.
Defined.

(** X15.  What [predict] leaves alone.  It never changes the account, and
    never the slot of another instance.  Once the slot of the instance is
    set, a call sends nothing and touches no file: the world is as it was
    and the outcome is that of the model in the slot, which stays
    there. *)
Theorem predict_frame {Model DataFrame Prediction : Type}
    (model_predict : Model -> DataFrame -> outcome Prediction)
    (pickle : option (bytes -> outcome Model))
    (self : Proj1EstimatorAzure) (dataframe : DataFrame) (w : world Model) :
  remote (predict model_predict pickle self dataframe w).2 = remote w /\
  (forall other, other <> instance_id self ->
   loaded_models (predict model_predict pickle self dataframe w).2 !! other
     = loaded_models w !! other) /\
  (forall m, loaded_model self w = Some m ->
   predict model_predict pickle self dataframe w
     = (wrapped (model_predict m dataframe), w)).
Proof.
  destruct (loaded_model self w) as [m|] eqn:Hslot.
  - rewrite (predict_cached _ _ _ _ _ _ Hslot). split_and!; try done.
    by intros m' [= <-].
  - rewrite (predict_empty _ _ _ _ _ Hslot).
    pose proof (load_model_frame pickle self w) as [Hslots Hremote].
    destruct (load_model pickle self w) as [[m|e] w1]; simpl in *;
      split_and!; try done.
    + intros other Hne. by rewrite lookup_insert_ne, Hslots.
    + intros other _. by rewrite Hslots.
Qed.

Lemma predict_frame_witness :
  predict Examples.model_predict s3_estimator_pickle Examples.estimator 1
    Scenarios.warm = (Ret 43, Scenarios.warm) /\
  loaded_models
    (predict Examples.model_predict (Some Examples.loads) Examples.estimator 1
       Scenarios.busy).2 !! 7 = Some 1.
Proof.
  destruct (predict_frame Examples.model_predict s3_estimator_pickle
              Examples.estimator 1 Scenarios.warm) as (_ & _ & Hwarm).
  destruct (predict_frame Examples.model_predict (Some Examples.loads)
              Examples.estimator 1 Scenarios.busy) as (_ & Hother & _).
  split.
  - apply (Hwarm 42). reflexivity.
  - rewrite Hother; [reflexivity|discriminate].
Defined.




(** ** The constructors, beyond the claims *)

(** X17.  [Proj1EstimatorAzure.__init__] talks to nothing: whether it
    returns or raises, the account, the local files, the transport and the
    log are as they were.  Without a credential, in the argument or in the
    environment, it raises the [ValueError] of the storage service as it
    is, not a [MyException], and changes nothing at all.  When it returns,
    the instance holds the three arguments, its slot is empty whatever was
    there, the slots of the other instances are as they were, and the
    client is the one the SDK built from the credential. *)
Theorem estimator_init_behaviour {Model Client : Type}
    (from_connection_string : string -> outcome Client)
    (self_id : nat) (connection_string container_name model_path : string)
    (environ : gmap string string) (w : world Model) :
  (truthy (resolved_connection_string (Some connection_string) environ) = false ->
   Proj1EstimatorAzure_init from_connection_string self_id connection_string
     container_name model_path environ w
   = (Raise (ValueError required_message), w)) /\
  (forall e w1,
   Proj1EstimatorAzure_init from_connection_string self_id connection_string
     container_name model_path environ w = (Raise e, w1) -> w1 = w) /\
  (forall self azure_storage w1,
   Proj1EstimatorAzure_init from_connection_string self_id connection_string
     container_name model_path environ w = (Ret (self, azure_storage), w1) ->
   self = Estimator self_id connection_string container_name model_path /\
   loaded_model self w1 = None /\
   (forall other, other <> self_id ->
    loaded_models w1 !! other = loaded_models w !! other) /\
   remote w1 = remote w /\ fs w1 = fs w /\
   faults w1 = faults w /\ trace w1 = trace w /\
   exists credential,
     resolved_connection_string (Some connection_string) environ = Some credential /\
     credential <> "" /\
     from_connection_string credential = Ret (blob_service_client azure_storage)).
Proof.
  unfold Proj1EstimatorAzure_init, bind, of_outcome, modify, ret.
  split_and!.
  - intros Hnone. by rewrite init_without_credential.
  - intros e w1.
    by destruct (AzureBlobStorageService_init _ _ _); intros [= _ <-].
  - intros self azure_storage w1.
    destruct (truthy (resolved_connection_string (Some connection_string) environ))
      eqn:Ht.
    + destruct (init_with_credential from_connection_string
                  (Some connection_string) environ Ht)
        as (credential & Hres & Hne & ->).
      destruct (from_connection_string credential) as [client|e] eqn:Hsdk;
        [|done].
      intros [= <- <- <-]. unfold loaded_model. simpl.
      rewrite lookup_delete_eq. split_and!; try done.
      * intros other Hother. by rewrite lookup_delete_ne.
      * by exists credential.
    + by rewrite init_without_credential.
Qed.

Lemma estimator_init_behaviour_witness :
  (Proj1EstimatorAzure_init Scenarios.from_connection_string 7 "" "models"
     "model.pkl" ∅ Scenarios.busy).1 = Raise (ValueError required_message) /\
  loaded_model (Estimator 7 "UseDevelopmentStorage=true" "models" "model.pkl")
    (Proj1EstimatorAzure_init Scenarios.from_connection_string 7
       "UseDevelopmentStorage=true" "models" "model.pkl" ∅ Scenarios.busy).2
    = None.
Proof.
  destruct (estimator_init_behaviour Scenarios.from_connection_string 7 ""
              "models" "model.pkl" ∅ Scenarios.busy) as (Hnone & _).
  destruct (estimator_init_behaviour Scenarios.from_connection_string 7
              "UseDevelopmentStorage=true" "models" "model.pkl" ∅ Scenarios.busy)
    as (_ & _ & Hret).
  split.
  - rewrite Hnone; reflexivity.
  - destruct (Hret (Estimator 7 "UseDevelopmentStorage=true" "models" "model.pkl")
                (Service "UseDevelopmentStorage=true")
                (Proj1EstimatorAzure_init Scenarios.from_connection_string 7
                   "UseDevelopmentStorage=true" "models" "model.pkl" ∅
                   Scenarios.busy).2) as (_ & Hslot & _); [reflexivity|].
    exact Hslot.
Defined.

(** X18.  What a failed construction of [AzureBlobClient] leaves behind,
    and what counts as unset.  A construction that raises, the variable
    being unset or the SDK refusing its value, leaves the class without a
    client and builds none, so the next construction reads the variable
    again: once the variable holds a value the SDK takes, it returns the
    first client of the process.  A variable set to the empty string is
    not unset: its value goes to the SDK and the outcome is the SDK's. *)
Theorem connection_provider_retries
    (key : string) (sdk_rejects : string -> option pyexc)
    (p : azure_connection.process)
    (Hfresh : azure_connection.class_blob_service_client p = None) :
  (forall e p1,
   azure_connection.init key sdk_rejects p = (Raise e, p1) ->
   azure_connection.class_blob_service_client p1 = None /\
   azure_connection.clients p1 = azure_connection.clients p /\
   azure_connection.environ p1 = azure_connection.environ p /\
   azure_connection.getenv_calls p1 = S (azure_connection.getenv_calls p)) /\
  (forall cs e,
   azure_connection.environ p !! key = Some cs -> sdk_rejects cs = Some e ->
   (azure_connection.init key sdk_rejects p).1 = Raise e) /\
  (azure_connection.environ p !! key = Some "" -> sdk_rejects "" = None ->
   (azure_connection.init key sdk_rejects p).1
   = Ret (azure_connection.Instance
            (Some (azure_connection.Client
                     (length (azure_connection.clients p)) "")))) /\
  (forall env cs,
   env !! key = None -> sdk_rejects cs = None ->
   (azure_connection.run key sdk_rejects
      [azure_connection.Construct; azure_connection.Putenv key cs;
       azure_connection.Construct] (azure_connection.initial env)).1
   = [Raise (PlainException (azure_connection.not_set_message key));
      Ret (azure_connection.Instance (Some (azure_connection.Client 0 cs)))]).
Proof.
  split_and!.
  - intros e p1 Hinit.
    destruct (init_cases key sdk_rejects p)
      as [(c & Hc & _)|[(_ & e' & He)|(_ & cs & Hcs)]]; [congruence| |congruence].
    rewrite He in Hinit. by injection Hinit as _ <-.
  - intros cs e Hcs Hr. by rewrite (init_rejected _ _ _ _ _ Hfresh Hcs Hr).
  - intros Hcs Hr. by rewrite (init_first _ _ _ _ Hfresh Hcs Hr).
  - intros env cs Henv Hr. simpl.
    rewrite (init_unset key sdk_rejects (azure_connection.initial env) eq_refl Henv).
    simpl.
    erewrite init_first; [done|done| |exact Hr].
    simpl. apply lookup_insert_eq.
Qed.

Lemma connection_provider_retries_witness :
  (azure_connection.init "AZURE_STORAGE_CONNECTION_STRING" Scenarios.sdk_rejects
     (azure_connection.initial {[ "AZURE_STORAGE_CONNECTION_STRING" := "" ]})).1
    = Raise (ValueError "Connection string is either blank or malformed.") /\
  (azure_connection.run "AZURE_STORAGE_CONNECTION_STRING" Scenarios.sdk_rejects
     [azure_connection.Construct;
      azure_connection.Putenv "AZURE_STORAGE_CONNECTION_STRING"
        "UseDevelopmentStorage=true";
      azure_connection.Construct] (azure_connection.initial ∅)).1
    = [Raise (PlainException
                "Environment variable: AZURE_STORAGE_CONNECTION_STRING is not set.");
       Ret (azure_connection.Instance
              (Some (azure_connection.Client 0 "UseDevelopmentStorage=true")))].
Proof.
  split.
  - destruct (connection_provider_retries "AZURE_STORAGE_CONNECTION_STRING"
                Scenarios.sdk_rejects
                (azure_connection.initial
                   {[ "AZURE_STORAGE_CONNECTION_STRING" := "" ]}))
      as (_ & Hrejected & _); [reflexivity|].
    apply (Hrejected ""); reflexivity.
  - destruct (connection_provider_retries "AZURE_STORAGE_CONNECTION_STRING"
                Scenarios.sdk_rejects (azure_connection.initial ∅))
      as (_ & _ & _ & Hretry); [reflexivity|].
    apply (Hretry ∅ "UseDevelopmentStorage=true"); reflexivity.
Defined.

(** X19.  [AzureBlobStorageService.__init__] with an SDK that may refuse.
    Whatever the factory does: a credential it refuses fails the
    construction with the factory's own exception; an explicit non-empty
    argument makes the environment irrelevant; and an explicit empty string
    counts as no argument, so that the variable decides. *)
Theorem storage_service_init_any_factory {Client : Type}
    (from_connection_string : string -> outcome Client)
    (connection_string : option string) (environ : gmap string string) :
  (forall credential e,
   resolved_connection_string connection_string environ = Some credential ->
   credential <> "" -> from_connection_string credential = Raise e ->
   AzureBlobStorageService_init from_connection_string connection_string environ
   = Raise e) /\
  (truthy connection_string = true ->
   forall environ',
   AzureBlobStorageService_init from_connection_string connection_string environ'
   = AzureBlobStorageService_init from_connection_string connection_string environ) /\
  AzureBlobStorageService_init from_connection_string (Some "") environ
  = AzureBlobStorageService_init from_connection_string None environ.
Proof.
  split_and!.
  - intros credential e Hres Hne Hsdk.
    destruct (init_with_credential from_connection_string connection_string environ)
      as (credential' & Hres' & _ & ->); [apply truthy_Some; eauto|].
    assert (credential' = credential) as -> by congruence. by rewrite Hsdk.
  - intros Ht environ'. unfold AzureBlobStorageService_init,
      resolved_connection_string. by rewrite Ht.
  - done.
Qed.

Lemma storage_service_init_any_factory_witness :
  AzureBlobStorageService_init Scenarios.from_connection_string (Some "garbage")
    {[ AZURE_STORAGE_CONNECTION_STRING := "UseDevelopmentStorage=true" ]}
  = Raise (ValueError "Connection string is either blank or malformed.") /\
  AzureBlobStorageService_init Scenarios.from_connection_string
    (Some "UseDevelopmentStorage=true")
    {[ AZURE_STORAGE_CONNECTION_STRING := "garbage" ]}
  = AzureBlobStorageService_init Scenarios.from_connection_string
      (Some "UseDevelopmentStorage=true") ∅.
Proof.
  destruct (storage_service_init_any_factory Scenarios.from_connection_string
              (Some "garbage")
              {[ AZURE_STORAGE_CONNECTION_STRING := "UseDevelopmentStorage=true" ]})
    as (Hrefused & _).
  destruct (storage_service_init_any_factory Scenarios.from_connection_string
              (Some "UseDevelopmentStorage=true") ∅) as (_ & Henv & _).
  split.
  - apply (Hrefused "garbage"); [reflexivity|discriminate|reflexivity].
  - apply Henv. reflexivity.
Defined.


